(** * Collage generator: the canvas compositor, hit tester and drag controller

    A shallow embedding of [src/App.tsx] (and of the two interfaces of
    [types.ts]) together with the properties its specification states.

    Numbers.  A JavaScript [number] is modelled as an exact rational ([Q]):
    sums, products, quotients and comparisons are the mathematical ones, so
    rounding, infinities and NaN are outside the model, and so is a quotient
    by zero; a theorem that depends on the value of a quotient assumes its
    divisor positive.  Equality of computed
    numbers is [Qeq] ([==]); structural equality is used where the code
    stores a value without computing on it.

    React.  A component's state is one record ([App.State]); a handler is a
    function from the state its closure captured to the state after all of
    its queued updates have been applied, in order.  The canvas element
    behind [canvasRef] is part of that record. *)

From Stdlib Require Import QArith Qminmax Qabs Lqa Lia.
From Stdlib Require Import Bool String List.
Import ListNotations.

Open Scope string_scope.
Open Scope list_scope.
Open Scope Q_scope.

(** ** Data model ([types.ts]) *)

Module Point.
Record t : Type := mk { x : Q; y : Q }.
End Point.

Module ImageTransform.
Record t : Type := mk { x : Q; y : Q; scale : Q; rotation : Q }.
End ImageTransform.

(** A user-selected file; only its identity matters here. *)
Inductive File : Type := Blob (name : string).

Module CollageConfig.
Record t : Type := mk {
  name : string;
  furigana : string;
  bgColor1 : string;
  bgColor2 : string;
  characterImage : option File;
  overlayImage : option File;
  characterTransform : ImageTransform.t;
  overlayTransform : ImageTransform.t
}.
End CollageConfig.

(** A decoded bitmap: [loadImage] resolves with one of these. *)
Module HTMLImageElement.
Record t : Type := mk { src : string; width : Q; height : Q }.
End HTMLImageElement.

Module LoadedImages.
Record t : Type := mk {
  char : option HTMLImageElement.t;
  overlay : option HTMLImageElement.t
}.
End LoadedImages.

Definition INITIAL_TRANSFORM : ImageTransform.t :=
  ImageTransform.mk 0 0 1 0.

(** [Math.PI] is the binary64 number 0x1.921fb54442d18p+1, which is this
    rational exactly. *)
Definition Math_PI : Q := 884279719003555 # 281474976710656.

Definition Math_min (a b : Q) : Q := Qmin a b.
Definition Math_max (a b : Q) : Q := Qmax a b.

(** JavaScript truthiness of a string: only the empty string is falsy. *)
Definition truthy (s : string) : bool :=
  match s with
  | EmptyString => false
  | String _ _ => true
  end.

(** ** The 2D canvas

    The platform's canvas is modelled as far as [drawCanvas] uses it.  The
    output bitmap is the sequence of painting operations applied since the
    bitmap was last cleared, each with the drawing state it was painted
    under; equal sequences are equal rasters. *)

Inductive Xform : Type :=
| Translate (tx ty : Q)
| Rotate (angle : Q)
| Scale (sx sy : Q).

Module Rect.
Record t : Type := mk { x : Q; y : Q; w : Q; h : Q }.
End Rect.

(** The drawing state that [save] pushes and [restore] pops.  [transform]
    lists the transformations in the order they were applied (outermost
    first); [clip] lists the clipping paths, each with the transformation
    it was built under. *)
Module DrawingState.
Record t : Type := mk {
  transform : list Xform;
  clip : list (list Xform * Rect.t);
  fillStyle : string;
  strokeStyle : string;
  lineWidth : Q;
  lineJoin : string;
  font : string;
  textAlign : string;
  textBaseline : string;
  filter : string;
  globalCompositeOperation : string;
  shadowColor : string;
  shadowBlur : Q;
  shadowOffsetX : Q;
  shadowOffsetY : Q
}.

(** The state of a context that has just been created or reset. *)
Definition initial : t :=
  mk [] [] "#000000" "#000000" 1 "miter" "10px sans-serif" "start"
     "alphabetic" "none" "source-over" "rgba(0, 0, 0, 0)" 0 0 0.
End DrawingState.

Inductive Primitive : Type :=
| FillRect (x y w h : Q)
| DrawImage (image : HTMLImageElement.t) (dx dy dw dh : Q)
| StrokeText (text : string) (x y : Q)
| FillText (text : string) (x y : Q).

Module Paint.
Record t : Type := mk { prim : Primitive; state : DrawingState.t }.
End Paint.

Module DOMRect.
Record t : Type := mk { left : Q; top : Q; width : Q; height : Q }.
End DOMRect.

(** A canvas element with its 2D context.  [path] is the current path,
    which [save] and [restore] leave alone. *)
Module Canvas.
Record t : Type := mk {
  width : Q;
  height : Q;
  boundingClientRect : DOMRect.t;
  state : DrawingState.t;
  stack : list DrawingState.t;
  path : list (list Xform * Rect.t);
  bitmap : list Paint.t
}.

(** A canvas as the browser creates it: 300 by 150, nothing painted. *)
Definition create (r : DOMRect.t) : t :=
  mk 300 150 r DrawingState.initial [] [] [].
End Canvas.

(** *** Context operations *)

Module Ctx.
Import DrawingState.

Definition with_state (f : DrawingState.t -> DrawingState.t) (c : Canvas.t)
  : Canvas.t :=
  Canvas.mk (Canvas.width c) (Canvas.height c) (Canvas.boundingClientRect c)
            (f (Canvas.state c)) (Canvas.stack c) (Canvas.path c)
            (Canvas.bitmap c).

Definition paint (p : Primitive) (c : Canvas.t) : Canvas.t :=
  Canvas.mk (Canvas.width c) (Canvas.height c) (Canvas.boundingClientRect c)
            (Canvas.state c) (Canvas.stack c) (Canvas.path c)
            (Canvas.bitmap c ++ [Paint.mk p (Canvas.state c)]).

(** Assigning [canvas.width] or [canvas.height], even to the value it has,
    clears the bitmap and resets the context to its default state. *)
Definition setWidth (w : Q) (c : Canvas.t) : Canvas.t :=
  Canvas.mk w (Canvas.height c) (Canvas.boundingClientRect c)
            DrawingState.initial [] [] [].

Definition setHeight (h : Q) (c : Canvas.t) : Canvas.t :=
  Canvas.mk (Canvas.width c) h (Canvas.boundingClientRect c)
            DrawingState.initial [] [] [].

Definition save (c : Canvas.t) : Canvas.t :=
  Canvas.mk (Canvas.width c) (Canvas.height c) (Canvas.boundingClientRect c)
            (Canvas.state c) (Canvas.state c :: Canvas.stack c)
            (Canvas.path c) (Canvas.bitmap c).

(** [restore] on an empty stack does nothing. *)
Definition restore (c : Canvas.t) : Canvas.t :=
  match Canvas.stack c with
  | [] => c
  | s :: rest =>
      Canvas.mk (Canvas.width c) (Canvas.height c)
                (Canvas.boundingClientRect c) s rest (Canvas.path c)
                (Canvas.bitmap c)
  end.

Definition push_xform (x : Xform) (s : DrawingState.t) : DrawingState.t :=
  mk (transform s ++ [x]) (clip s) (fillStyle s) (strokeStyle s)
     (lineWidth s) (lineJoin s) (font s) (textAlign s) (textBaseline s)
     (filter s) (globalCompositeOperation s) (shadowColor s) (shadowBlur s)
     (shadowOffsetX s) (shadowOffsetY s).

Definition translate (tx ty : Q) : Canvas.t -> Canvas.t :=
  with_state (push_xform (Translate tx ty)).
Definition rotate (angle : Q) : Canvas.t -> Canvas.t :=
  with_state (push_xform (Rotate angle)).
Definition scale (sx sy : Q) : Canvas.t -> Canvas.t :=
  with_state (push_xform (Scale sx sy)).

Definition set_fillStyle (v : string) : Canvas.t -> Canvas.t :=
  with_state (fun s =>
    mk (transform s) (clip s) v (strokeStyle s)
       (lineWidth s) (lineJoin s) (font s) (textAlign s) (textBaseline s)
       (filter s) (globalCompositeOperation s) (shadowColor s) (shadowBlur s)
       (shadowOffsetX s) (shadowOffsetY s)).

Definition set_strokeStyle (v : string) : Canvas.t -> Canvas.t :=
  with_state (fun s =>
    mk (transform s) (clip s) (fillStyle s) v
       (lineWidth s) (lineJoin s) (font s) (textAlign s) (textBaseline s)
       (filter s) (globalCompositeOperation s) (shadowColor s) (shadowBlur s)
       (shadowOffsetX s) (shadowOffsetY s)).

Definition set_lineWidth (v : Q) : Canvas.t -> Canvas.t :=
  with_state (fun s =>
    mk (transform s) (clip s) (fillStyle s) (strokeStyle s)
       v (lineJoin s) (font s) (textAlign s) (textBaseline s)
       (filter s) (globalCompositeOperation s) (shadowColor s) (shadowBlur s)
       (shadowOffsetX s) (shadowOffsetY s)).

Definition set_lineJoin (v : string) : Canvas.t -> Canvas.t :=
  with_state (fun s =>
    mk (transform s) (clip s) (fillStyle s) (strokeStyle s)
       (lineWidth s) v (font s) (textAlign s) (textBaseline s)
       (filter s) (globalCompositeOperation s) (shadowColor s) (shadowBlur s)
       (shadowOffsetX s) (shadowOffsetY s)).

Definition set_font (v : string) : Canvas.t -> Canvas.t :=
  with_state (fun s =>
    mk (transform s) (clip s) (fillStyle s) (strokeStyle s)
       (lineWidth s) (lineJoin s) v (textAlign s) (textBaseline s)
       (filter s) (globalCompositeOperation s) (shadowColor s) (shadowBlur s)
       (shadowOffsetX s) (shadowOffsetY s)).

Definition set_textAlign (v : string) : Canvas.t -> Canvas.t :=
  with_state (fun s =>
    mk (transform s) (clip s) (fillStyle s) (strokeStyle s)
       (lineWidth s) (lineJoin s) (font s) v (textBaseline s)
       (filter s) (globalCompositeOperation s) (shadowColor s) (shadowBlur s)
       (shadowOffsetX s) (shadowOffsetY s)).

Definition set_textBaseline (v : string) : Canvas.t -> Canvas.t :=
  with_state (fun s =>
    mk (transform s) (clip s) (fillStyle s) (strokeStyle s)
       (lineWidth s) (lineJoin s) (font s) (textAlign s) v
       (filter s) (globalCompositeOperation s) (shadowColor s) (shadowBlur s)
       (shadowOffsetX s) (shadowOffsetY s)).

Definition set_filter (v : string) : Canvas.t -> Canvas.t :=
  with_state (fun s =>
    mk (transform s) (clip s) (fillStyle s) (strokeStyle s)
       (lineWidth s) (lineJoin s) (font s) (textAlign s) (textBaseline s)
       v (globalCompositeOperation s) (shadowColor s) (shadowBlur s)
       (shadowOffsetX s) (shadowOffsetY s)).

Definition set_globalCompositeOperation (v : string) : Canvas.t -> Canvas.t :=
  with_state (fun s =>
    mk (transform s) (clip s) (fillStyle s) (strokeStyle s)
       (lineWidth s) (lineJoin s) (font s) (textAlign s) (textBaseline s)
       (filter s) v (shadowColor s) (shadowBlur s)
       (shadowOffsetX s) (shadowOffsetY s)).

Definition set_shadowColor (v : string) : Canvas.t -> Canvas.t :=
  with_state (fun s =>
    mk (transform s) (clip s) (fillStyle s) (strokeStyle s)
       (lineWidth s) (lineJoin s) (font s) (textAlign s) (textBaseline s)
       (filter s) (globalCompositeOperation s) v (shadowBlur s)
       (shadowOffsetX s) (shadowOffsetY s)).

Definition set_shadowBlur (v : Q) : Canvas.t -> Canvas.t :=
  with_state (fun s =>
    mk (transform s) (clip s) (fillStyle s) (strokeStyle s)
       (lineWidth s) (lineJoin s) (font s) (textAlign s) (textBaseline s)
       (filter s) (globalCompositeOperation s) (shadowColor s) v
       (shadowOffsetX s) (shadowOffsetY s)).

Definition set_shadowOffsetX (v : Q) : Canvas.t -> Canvas.t :=
  with_state (fun s =>
    mk (transform s) (clip s) (fillStyle s) (strokeStyle s)
       (lineWidth s) (lineJoin s) (font s) (textAlign s) (textBaseline s)
       (filter s) (globalCompositeOperation s) (shadowColor s) (shadowBlur s)
       v (shadowOffsetY s)).

Definition set_shadowOffsetY (v : Q) : Canvas.t -> Canvas.t :=
  with_state (fun s =>
    mk (transform s) (clip s) (fillStyle s) (strokeStyle s)
       (lineWidth s) (lineJoin s) (font s) (textAlign s) (textBaseline s)
       (filter s) (globalCompositeOperation s) (shadowColor s) (shadowBlur s)
       (shadowOffsetX s) v).

Definition beginPath (c : Canvas.t) : Canvas.t :=
  Canvas.mk (Canvas.width c) (Canvas.height c) (Canvas.boundingClientRect c)
            (Canvas.state c) (Canvas.stack c) [] (Canvas.bitmap c).

Definition rect (x y w h : Q) (c : Canvas.t) : Canvas.t :=
  Canvas.mk (Canvas.width c) (Canvas.height c) (Canvas.boundingClientRect c)
            (Canvas.state c) (Canvas.stack c)
            (Canvas.path c ++ [(transform (Canvas.state c), Rect.mk x y w h)])
            (Canvas.bitmap c).

(** [clip] intersects the clipping region with the current path. *)
Definition clip (c : Canvas.t) : Canvas.t :=
  with_state (fun s =>
    mk (transform s) (DrawingState.clip s ++ Canvas.path c) (fillStyle s)
       (strokeStyle s) (lineWidth s) (lineJoin s) (font s) (textAlign s)
       (textBaseline s) (filter s) (globalCompositeOperation s)
       (shadowColor s) (shadowBlur s) (shadowOffsetX s) (shadowOffsetY s)) c.

Definition fillRect (x y w h : Q) : Canvas.t -> Canvas.t :=
  paint (FillRect x y w h).
Definition drawImage (image : HTMLImageElement.t) (dx dy dw dh : Q)
  : Canvas.t -> Canvas.t :=
  paint (DrawImage image dx dy dw dh).
Definition strokeText (text : string) (x y : Q) : Canvas.t -> Canvas.t :=
  paint (StrokeText text x y).
Definition fillText (text : string) (x y : Q) : Canvas.t -> Canvas.t :=
  paint (FillText text x y).
End Ctx.

(** Statements of the source are chained left to right. *)
Notation "c |> f" := (f c) (at level 45, left associativity, only parsing).

(** ** Component state ([App]) *)

Inductive ImageField : Type := characterImageField | overlayImageField.
Inductive Target : Type := character | overlay.
Inductive TransformKey : Type := key_x | key_y | key_scale | key_rotation.

(** A key of [CollageConfig] with a value of that key's type, as
    [handleInputChange] receives them. *)
Inductive TextField : Type :=
| nameField | furiganaField | bgColor1Field | bgColor2Field.

Inductive FieldValue : Type :=
| TextValue (field : TextField) (value : string)
| ImageValue (field : ImageField) (value : File).

(** A mouse event, or a touch event with its first touch point set apart:
    [touchstart] and [touchmove] always carry at least one. *)
Inductive PointerEvent : Type :=
| MouseEvent (clientX clientY : Q)
| TouchEvent (touch0 : Point.t) (others : list Point.t).

Module App.
Import CollageConfig.

Record State : Type := mkState {
  config : CollageConfig.t;
  loadedImages : LoadedImages.t;
  isDragging : bool;
  dragStart : Point.t;
  initialDragTransform : Point.t;
  isHoveringChar : bool;
  canvasRef : option Canvas.t
}.

(** The state of the first render, before the canvas is attached. *)
Definition initialState : State :=
  mkState
    (CollageConfig.mk "なまえ" "フリガナ" "#ffffff" "#fecdd3" None None
                      INITIAL_TRANSFORM INITIAL_TRANSFORM)
    (LoadedImages.mk None None)
    false (Point.mk 0 0) (Point.mk 0 0) false None.

(** *** State setters; [setConfig] and [setLoadedImages] take an updater. *)

Definition setConfig (f : CollageConfig.t -> CollageConfig.t) (s : State)
  : State :=
  mkState (f (config s)) (loadedImages s) (isDragging s) (dragStart s)
          (initialDragTransform s) (isHoveringChar s) (canvasRef s).

Definition setLoadedImages (f : LoadedImages.t -> LoadedImages.t) (s : State)
  : State :=
  mkState (config s) (f (loadedImages s)) (isDragging s) (dragStart s)
          (initialDragTransform s) (isHoveringChar s) (canvasRef s).

Definition setIsDragging (b : bool) (s : State) : State :=
  mkState (config s) (loadedImages s) b (dragStart s)
          (initialDragTransform s) (isHoveringChar s) (canvasRef s).

Definition setDragStart (p : Point.t) (s : State) : State :=
  mkState (config s) (loadedImages s) (isDragging s) p
          (initialDragTransform s) (isHoveringChar s) (canvasRef s).

Definition setInitialDragTransform (p : Point.t) (s : State) : State :=
  mkState (config s) (loadedImages s) (isDragging s) (dragStart s)
          p (isHoveringChar s) (canvasRef s).

Definition setIsHoveringChar (b : bool) (s : State) : State :=
  mkState (config s) (loadedImages s) (isDragging s) (dragStart s)
          (initialDragTransform s) b (canvasRef s).

Definition setCanvas (c : option Canvas.t) (s : State) : State :=
  mkState (config s) (loadedImages s) (isDragging s) (dragStart s)
          (initialDragTransform s) (isHoveringChar s) c.

(** *** Object spreads over [CollageConfig] and [ImageTransform] *)

Definition withCharacterTransform (t : ImageTransform.t)
  (prev : CollageConfig.t) : CollageConfig.t :=
  CollageConfig.mk (name prev) (furigana prev) (bgColor1 prev) (bgColor2 prev)
                   (characterImage prev) (overlayImage prev)
                   t (overlayTransform prev).

Definition withOverlayTransform (t : ImageTransform.t)
  (prev : CollageConfig.t) : CollageConfig.t :=
  CollageConfig.mk (name prev) (furigana prev) (bgColor1 prev) (bgColor2 prev)
                   (characterImage prev) (overlayImage prev)
                   (characterTransform prev) t.

(** [{ ...prev, [field]: value }] *)
Definition withField (fv : FieldValue) (prev : CollageConfig.t)
  : CollageConfig.t :=
  match fv with
  | TextValue nameField v =>
      CollageConfig.mk v (furigana prev) (bgColor1 prev) (bgColor2 prev)
                       (characterImage prev) (overlayImage prev)
                       (characterTransform prev) (overlayTransform prev)
  | TextValue furiganaField v =>
      CollageConfig.mk (name prev) v (bgColor1 prev) (bgColor2 prev)
                       (characterImage prev) (overlayImage prev)
                       (characterTransform prev) (overlayTransform prev)
  | TextValue bgColor1Field v =>
      CollageConfig.mk (name prev) (furigana prev) v (bgColor2 prev)
                       (characterImage prev) (overlayImage prev)
                       (characterTransform prev) (overlayTransform prev)
  | TextValue bgColor2Field v =>
      CollageConfig.mk (name prev) (furigana prev) (bgColor1 prev) v
                       (characterImage prev) (overlayImage prev)
                       (characterTransform prev) (overlayTransform prev)
  | ImageValue characterImageField f =>
      CollageConfig.mk (name prev) (furigana prev) (bgColor1 prev)
                       (bgColor2 prev) (Some f) (overlayImage prev)
                       (characterTransform prev) (overlayTransform prev)
  | ImageValue overlayImageField f =>
      CollageConfig.mk (name prev) (furigana prev) (bgColor1 prev)
                       (bgColor2 prev) (characterImage prev) (Some f)
                       (characterTransform prev) (overlayTransform prev)
  end.

(** [{ ...t, [key]: value }] *)
Definition withKey (key : TransformKey) (value : Q) (t : ImageTransform.t)
  : ImageTransform.t :=
  match key with
  | key_x =>
      ImageTransform.mk value (ImageTransform.y t) (ImageTransform.scale t)
                        (ImageTransform.rotation t)
  | key_y =>
      ImageTransform.mk (ImageTransform.x t) value (ImageTransform.scale t)
                        (ImageTransform.rotation t)
  | key_scale =>
      ImageTransform.mk (ImageTransform.x t) (ImageTransform.y t) value
                        (ImageTransform.rotation t)
  | key_rotation =>
      ImageTransform.mk (ImageTransform.x t) (ImageTransform.y t)
                        (ImageTransform.scale t) value
  end.

(** [prev[`${target}Transform`]] and [{ ...prev, [`${target}Transform`]: t }] *)
Definition targetTransform (target : Target) (prev : CollageConfig.t)
  : ImageTransform.t :=
  match target with
  | character => characterTransform prev
  | overlay => overlayTransform prev
  end.

Definition withTargetTransform (target : Target) (t : ImageTransform.t)
  : CollageConfig.t -> CollageConfig.t :=
  match target with
  | character => withCharacterTransform t
  | overlay => withOverlayTransform t
  end.

(** *** Input handlers *)

Definition handleInputChange (fv : FieldValue) (s : State) : State :=
  s |> setConfig (withField fv).

(** [files0] is [event.target.files?.[0]]. *)
Definition handleFileUpload (files0 : option File) (field : ImageField)
  (s : State) : State :=
  match files0 with
  | Some file =>
      let s := s |> handleInputChange (ImageValue field file) in
      let s := match field with
               | characterImageField =>
                   s |> setConfig (withCharacterTransform INITIAL_TRANSFORM)
               | overlayImageField => s
               end in
      match field with
      | overlayImageField =>
          s |> setConfig (withOverlayTransform INITIAL_TRANSFORM)
      | characterImageField => s
      end
  | None => s
  end.

Definition handleTransformChange (target : Target) (key : TransformKey)
  (value : Q) (s : State) : State :=
  s |> setConfig (fun prev =>
         withTargetTransform target
           (withKey key value (targetTransform target prev)) prev).

Definition resetTransform (target : Target) (s : State) : State :=
  s |> setConfig (withTargetTransform target INITIAL_TRANSFORM).

(** *** Drag and drop *)

Definition getCanvasCoordinates (s : State) (clientX clientY : Q)
  : Point.t :=
  match canvasRef s with
  | None => Point.mk 0 0
  | Some canvas =>
      let rect := Canvas.boundingClientRect canvas in
      let scaleX := Canvas.width canvas / DOMRect.width rect in
      let scaleY := Canvas.height canvas / DOMRect.height rect in
      Point.mk ((clientX - DOMRect.left rect) * scaleX)
               ((clientY - DOMRect.top rect) * scaleY)
  end.

Definition isPointInCharacter (s : State) (x y : Q) : bool :=
  match LoadedImages.char (loadedImages s) with
  | None => false
  | Some img =>
      let cx := 450 + ImageTransform.x (characterTransform (config s)) in
      let cy := 600 + ImageTransform.y (characterTransform (config s)) in
      let imgW := HTMLImageElement.width img in
      let imgH := HTMLImageElement.height img in
      let margin := 80 in
      let maxCharWidth := 900 - (margin * 2) in
      let maxCharHeight := 1200 - (margin * 2) in
      let baseScale :=
        Math_min (maxCharWidth / imgW) (maxCharHeight / imgH) in
      let displayW :=
        imgW * baseScale
        * ImageTransform.scale (characterTransform (config s)) in
      let displayH :=
        imgH * baseScale
        * ImageTransform.scale (characterTransform (config s)) in
      Qle_bool (cx - displayW / 2) x
      && Qle_bool x (cx + displayW / 2)
      && Qle_bool (cy - displayH / 2) y
      && Qle_bool y (cy + displayH / 2)
  end.

(** The pointer position of an event: the mouse position, or that of the
    first touch. *)
Definition clientXY (e : PointerEvent) : Q * Q :=
  match e with
  | MouseEvent clientX clientY => (clientX, clientY)
  | TouchEvent touch0 _ => (Point.x touch0, Point.y touch0)
  end.

Definition hasTouches (e : PointerEvent) : bool :=
  match e with
  | MouseEvent _ _ => false
  | TouchEvent _ _ => true
  end.

Definition handleMouseDown (e : PointerEvent) (s : State) : State :=
  match LoadedImages.char (loadedImages s) with
  | None => s
  | Some _ =>
      let '(clientX, clientY) := clientXY e in
      let p := getCanvasCoordinates s clientX clientY in
      if isPointInCharacter s (Point.x p) (Point.y p) then
        s |> setIsDragging true
          |> setDragStart (Point.mk (Point.x p) (Point.y p))
          |> setInitialDragTransform
               (Point.mk (ImageTransform.x (characterTransform (config s)))
                         (ImageTransform.y (characterTransform (config s))))
      else s
  end.

Definition handleMouseMove (e : PointerEvent) (s : State) : State :=
  let '(clientX, clientY) := clientXY e in
  let p := getCanvasCoordinates s clientX clientY in
  let s1 :=
    if negb (hasTouches e) && negb (isDragging s) then
      s |> setIsHoveringChar (isPointInCharacter s (Point.x p) (Point.y p))
    else s in
  if isDragging s then
    let dx := Point.x p - Point.x (dragStart s) in
    let dy := Point.y p - Point.y (dragStart s) in
    s1 |> setConfig (fun prev =>
            withCharacterTransform
              (ImageTransform.mk
                 (Point.x (initialDragTransform s) + dx)
                 (Point.y (initialDragTransform s) + dy)
                 (ImageTransform.scale (characterTransform prev))
                 (ImageTransform.rotation (characterTransform prev)))
              prev)
  else s1.

Definition handleMouseUp (s : State) : State :=
  s |> setIsDragging false.

(** *** Main drawing logic

    [render] is the body of [drawCanvas] once the canvas is at hand.  The
    application only ever asks for the "2d" context, so [getContext] does
    not fail. *)

Definition render (config : CollageConfig.t) (loadedImages : LoadedImages.t)
  (canvas : Canvas.t) : Canvas.t :=
  (* Canvas settings *)
  let ctx := canvas |> Ctx.setWidth 900 |> Ctx.setHeight 1200 in
  let width := Canvas.width ctx in
  let height := Canvas.height ctx in
  (* 1. Fill background 1 *)
  let ctx := ctx |> Ctx.set_fillStyle (bgColor1 config)
                 |> Ctx.fillRect 0 0 width height in
  let stripAngle := (-10 * Math_PI) / 180 in
  let stripHeight := 300 in
  let stripYOffset := 850 in
  let stripXOffset := -100 in
  (* 2. Draw background 2 (the strip) *)
  let ctx := ctx |> Ctx.save
                 |> Ctx.translate stripXOffset stripYOffset
                 |> Ctx.rotate stripAngle
                 |> Ctx.set_fillStyle (bgColor2 config)
                 |> Ctx.fillRect 0 (-200) 1400 stripHeight in
  (* 3. Draw overlay pattern *)
  let ctx :=
    match LoadedImages.overlay loadedImages with
    | Some overlayImg =>
        let ctx := ctx |> Ctx.beginPath
                       |> Ctx.rect 0 (-200) 1400 stripHeight
                       |> Ctx.clip in
        let coverScale :=
          Math_max (1400 / HTMLImageElement.width overlayImg)
                   (stripHeight / HTMLImageElement.height overlayImg) in
        let baseW := HTMLImageElement.width overlayImg * coverScale in
        let baseH := HTMLImageElement.height overlayImg * coverScale in
        ctx |> Ctx.save
            |> Ctx.translate 700 (-50)
            |> Ctx.translate (ImageTransform.x (overlayTransform config))
                             (ImageTransform.y (overlayTransform config))
            |> Ctx.rotate
                 ((ImageTransform.rotation (overlayTransform config)
                   * Math_PI) / 180)
            |> Ctx.scale (ImageTransform.scale (overlayTransform config))
                         (ImageTransform.scale (overlayTransform config))
            |> Ctx.set_filter "grayscale(100%) opacity(0.5)"
            |> Ctx.set_globalCompositeOperation "multiply"
            |> Ctx.drawImage overlayImg (- baseW / 2) (- baseH / 2)
                             baseW baseH
            |> Ctx.restore
    | None => ctx
    end in
  let ctx := ctx |> Ctx.restore in
  (* 4. Draw character *)
  let ctx :=
    match LoadedImages.char loadedImages with
    | Some charImg =>
        let margin := 80 in
        let maxCharWidth := width - (margin * 2) in
        let maxCharHeight := height - (margin * 2) in
        let baseScale :=
          Math_min (maxCharWidth / HTMLImageElement.width charImg)
                   (maxCharHeight / HTMLImageElement.height charImg) in
        let baseDrawW := HTMLImageElement.width charImg * baseScale in
        let baseDrawH := HTMLImageElement.height charImg * baseScale in
        let cx := width / 2 in
        let cy := height / 2 in
        ctx |> Ctx.save
            |> Ctx.translate
                 (cx + ImageTransform.x (characterTransform config))
                 (cy + ImageTransform.y (characterTransform config))
            |> Ctx.rotate
                 ((ImageTransform.rotation (characterTransform config)
                   * Math_PI) / 180)
            |> Ctx.scale (ImageTransform.scale (characterTransform config))
                         (ImageTransform.scale (characterTransform config))
            |> Ctx.set_shadowColor "rgba(0,0,0,0.2)"
            |> Ctx.set_shadowBlur 20
            |> Ctx.set_shadowOffsetX 5
            |> Ctx.set_shadowOffsetY 10
            |> Ctx.drawImage charImg (- baseDrawW / 2) (- baseDrawH / 2)
                             baseDrawW baseDrawH
            |> Ctx.restore
    | None => ctx
    end in
  (* 5. Draw text *)
  let ctx := ctx |> Ctx.save
                 |> Ctx.set_textAlign "center"
                 |> Ctx.set_textBaseline "middle" in
  let ctx :=
    if truthy (furigana config) then
      ctx |> Ctx.set_font "bold 40px 'M PLUS Rounded 1c'"
          |> Ctx.set_lineWidth 6
          |> Ctx.set_strokeStyle "white"
          |> Ctx.strokeText (furigana config) (width / 2) 80
          |> Ctx.set_fillStyle "#555"
          |> Ctx.fillText (furigana config) (width / 2) 80
    else ctx in
  let ctx :=
    if truthy (name config) then
      ctx |> Ctx.set_font "800 120px 'M PLUS Rounded 1c'"
          |> Ctx.set_lineWidth 15
          |> Ctx.set_strokeStyle "white"
          |> Ctx.set_lineJoin "round"
          |> Ctx.strokeText (name config) (width / 2) 180
          |> Ctx.set_fillStyle "#333"
          |> Ctx.fillText (name config) (width / 2) 180
    else ctx in
  ctx |> Ctx.restore.

Definition drawCanvas (s : State) : State :=
  match canvasRef s with
  | None => s
  | Some canvas =>
      s |> setCanvas (Some (render (config s) (loadedImages s) canvas))
  end.
End App.


(** ** Geometry of the painted output

    Where a painted primitive lands on the canvas.  A rotation by a nonzero
    angle has no rational description, so the mapping is partial: it is
    defined when every rotation in force is by the angle zero, that is,
    when user space is axis-aligned with the canvas. *)




Definition isText (p : Paint.t) : bool :=
  match Paint.prim p with
  | StrokeText _ _ _ | FillText _ _ _ => true
  | _ => false
  end.

Definition isImage (p : Paint.t) : bool :=
  match Paint.prim p with
  | DrawImage _ _ _ _ _ => true
  | _ => false
  end.

(** The text paints of a bitmap, the other paints, and the images painted,
    each in painting order. *)
Definition textPaints (bm : list Paint.t) : list Paint.t :=
  filter isText bm.

Definition otherPaints (bm : list Paint.t) : list Paint.t :=
  filter (fun p => negb (isText p)) bm.

Definition imagesPainted (bm : list Paint.t) : list HTMLImageElement.t :=
  flat_map (fun p => match Paint.prim p with
                     | DrawImage image _ _ _ _ => [image]
                     | _ => []
                     end) bm.

(** The image painted last, which lies on top of any other. *)
Fixpoint lastImagePaint (bm : list Paint.t) : option Paint.t :=
  match bm with
  | [] => None
  | p :: rest =>
      match lastImagePaint rest with
      | Some q => Some q
      | None => if isImage p then Some p else None
      end
  end.


(** ** The component as a transition system

    Every user action and every completed decode is an event; after the
    handler has run, React re-runs the effects: the two image loaders and
    the redraw. *)

Inductive Event : Type :=
| Mount (rect : DOMRect.t)
| Layout (rect : DOMRect.t)
| TextInput (field : TextField) (value : string)
| FileInput (files0 : option File) (field : ImageField)
| SliderInput (target : Target) (key : TransformKey) (value : Q)
| ResetClick (target : Target)
| PointerDown (e : PointerEvent)
| PointerMove (e : PointerEvent)
| PointerUp
| Decoded (field : ImageField) (img : HTMLImageElement.t).

Module Lifecycle.
Import App.

(** The loaders' synchronous branch: with no file selected the decoded
    image is cleared. *)
Definition loadEffects (s : State) : State :=
  let s :=
    match CollageConfig.characterImage (config s) with
    | None =>
        s |> setLoadedImages (fun prev =>
               LoadedImages.mk None (LoadedImages.overlay prev))
    | Some _ => s
    end in
  match CollageConfig.overlayImage (config s) with
  | None =>
      s |> setLoadedImages (fun prev =>
             LoadedImages.mk (LoadedImages.char prev) None)
  | Some _ => s
  end.

(** The loaders' [then] callback; it is live only while a file is
    selected. *)
Definition decoded (field : ImageField) (img : HTMLImageElement.t)
  (s : State) : State :=
  match field with
  | characterImageField =>
      match CollageConfig.characterImage (config s) with
      | Some _ =>
          s |> setLoadedImages (fun prev =>
                 LoadedImages.mk (Some img) (LoadedImages.overlay prev))
      | None => s
      end
  | overlayImageField =>
      match CollageConfig.overlayImage (config s) with
      | Some _ =>
          s |> setLoadedImages (fun prev =>
                 LoadedImages.mk (LoadedImages.char prev) (Some img))
      | None => s
      end
  end.

Definition relayout (rect : DOMRect.t) (s : State) : State :=
  match canvasRef s with
  | None => s
  | Some c =>
      s |> setCanvas (Some (Canvas.mk (Canvas.width c) (Canvas.height c) rect
                                      (Canvas.state c) (Canvas.stack c)
                                      (Canvas.path c) (Canvas.bitmap c)))
  end.

Definition handle (ev : Event) (s : State) : State :=
  match ev with
  | Mount rect => s |> setCanvas (Some (Canvas.create rect))
  | Layout rect => s |> relayout rect
  | TextInput field value => s |> handleInputChange (TextValue field value)
  | FileInput files0 field => s |> handleFileUpload files0 field
  | SliderInput target key value => s |> handleTransformChange target key value
  | ResetClick target => s |> resetTransform target
  | PointerDown e => s |> handleMouseDown e
  | PointerMove e => s |> handleMouseMove e
  | PointerUp => s |> handleMouseUp
  | Decoded field img => s |> decoded field img
  end.

Definition step (ev : Event) (s : State) : State :=
  s |> handle ev |> loadEffects |> drawCanvas.

Definition run (evs : list Event) (s : State) : State :=
  fold_left (fun s ev => step ev s) evs s.

Inductive reachable : State -> Prop :=
| reachable_initial : reachable initialState
| reachable_step : forall s ev, reachable s -> reachable (step ev s).
End Lifecycle.

(** ** Pointer sessions *)

Module Session.
Import App.

(** The canvas-space point both pointer handlers compute from an event. *)
Definition canvasPoint (s : State) (e : PointerEvent) : Point.t :=
  let '(clientX, clientY) := clientXY e in
  getCanvasCoordinates s clientX clientY.

(** A run of pointer-move events. *)
Definition moves (es : list PointerEvent) (s : State) : State :=
  fold_left (fun st e => handleMouseMove e st) es s.

Definition offsetX (s : State) : Q :=
  ImageTransform.x (CollageConfig.characterTransform (config s)).
Definition offsetY (s : State) : Q :=
  ImageTransform.y (CollageConfig.characterTransform (config s)).
End Session.

(** ** Sample inputs *)

Module Sample.
Import App Lifecycle.

(** A 200 by 300 portrait. *)
Definition portrait : HTMLImageElement.t :=
  HTMLImageElement.mk "blob:portrait" 200 300.

(** A canvas element shown at half its internal resolution. *)
Definition halfSize : DOMRect.t := DOMRect.mk 0 0 450 600.

(** The canvas is attached, a portrait is chosen and has been decoded. *)
Definition loaded : State :=
  run [Mount halfSize;
       FileInput (Some (Blob "portrait.png")) characterImageField;
       Decoded characterImageField portrait]
      initialState.

End Sample.

(** ** The specification's own words

    Definitions that follow the specification rather than the code; the
    theorems below compare them with the code. *)

Module Spec.


(** The base-fit ("contain") scale of an image of natural size [w] by [h]. *)
Definition baseScale (w h : Q) : Q :=
  Qmin ((900 - 160) / w) ((1200 - 160) / h).

(** Step 1 of the pipeline: the whole canvas filled with [bgColor1]. *)
Definition backgroundFill (config : CollageConfig.t) : Paint.t :=
  Paint.mk (FillRect 0 0 900 1200)
           (DrawingState.mk [] [] (CollageConfig.bgColor1 config)
              "#000000" 1 "miter" "10px sans-serif" "start" "alphabetic"
              "none" "source-over" "rgba(0, 0, 0, 0)" 0 0 0).

(** Step 2: in a frame translated by (-100, 850) and rotated by -10 degrees,
    the rectangle x in [0, 1400], y in [-200, 100] filled with [bgColor2]. *)
Definition accentBand (config : CollageConfig.t) : Paint.t :=
  Paint.mk (FillRect 0 (-200) 1400 300)
           (DrawingState.mk
              [Translate (-100) 850; Rotate ((-10 * Math_PI) / 180)] []
              (CollageConfig.bgColor2 config)
              "#000000" 1 "miter" "10px sans-serif" "start" "alphabetic"
              "none" "source-over" "rgba(0, 0, 0, 0)" 0 0 0).

(** [ps] draws [text] once: stroked in white with line width [outline],
    then filled with [fill], both times in canvas coordinates, centred
    horizontally on x = 450 and placed at height [y] by its [baseline]. *)
Definition outlined (text : string) (y outline : Q) (fill baseline : string)
  (ps : list Paint.t) : Prop :=
  match ps with
  | [s; f] =>
      match Paint.prim s, Paint.prim f with
      | StrokeText t1 x1 y1, FillText t2 x2 y2 =>
          t1 = text /\ t2 = text
          /\ x1 == 450 /\ x2 == 450 /\ y1 == y /\ y2 == y
      | _, _ => False
      end
      /\ DrawingState.strokeStyle (Paint.state s) = "white"
      /\ DrawingState.lineWidth (Paint.state s) == outline
      /\ DrawingState.fillStyle (Paint.state f) = fill
      /\ Forall (fun p =>
                   DrawingState.textAlign (Paint.state p) = "center"
                   /\ DrawingState.textBaseline (Paint.state p) = baseline
                   /\ DrawingState.transform (Paint.state p) = []
                   /\ DrawingState.clip (Paint.state p) = []) ps
  | _ => False
  end.

(** Step 5: the furigana (outline 6, dark gray "#555", at height 80), then
    the name (outline 15, near-black "#333", at height 180); an empty string
    contributes nothing. *)
Definition textLayer (baseline : string) (config : CollageConfig.t)
  (text : list Paint.t) : Prop :=
  let n := if truthy (CollageConfig.furigana config) then 2%nat else 0%nat in
  (if truthy (CollageConfig.furigana config)
   then outlined (CollageConfig.furigana config) 80 6 "#555" baseline
                 (firstn n text)
   else firstn n text = [])
  /\ (if truthy (CollageConfig.name config)
      then outlined (CollageConfig.name config) 180 15 "#333" baseline
                    (skipn n text)
      else skipn n text = []).

(** The text layer is drawn last, and is as [textLayer] describes. *)
Definition textDrawnLast (baseline : string) (config : CollageConfig.t)
  (bitmap : list Paint.t) : Prop :=
  bitmap = otherPaints bitmap ++ textPaints bitmap
  /\ textLayer baseline config (textPaints bitmap).

(** With no decoded primary image the drag controller is idle. *)
Definition idleWithoutImage (s : App.State) : Prop :=
  LoadedImages.char (App.loadedImages s) = None -> App.isDragging s = false.

End Spec.

(** ** Reading the state

    What the rest of the component reads off the state: a transform's
    fields by key, the cursor style of the canvas element, and the file the
    save button offers. *)

Module View.
Import App.

(** [t[key]] *)
Definition keyValue (key : TransformKey) (t : ImageTransform.t) : Q :=
  match key with
  | key_x => ImageTransform.x t
  | key_y => ImageTransform.y t
  | key_scale => ImageTransform.scale t
  | key_rotation => ImageTransform.rotation t
  end.

Definition key_eqb (a b : TransformKey) : bool :=
  match a, b with
  | key_x, key_x | key_y, key_y | key_scale, key_scale
  | key_rotation, key_rotation => true
  | _, _ => false
  end.

Definition target_eqb (a b : Target) : bool :=
  match a, b with
  | character, character | overlay, overlay => true
  | _, _ => false
  end.

(** [config[field]] for the four text-valued keys. *)
Definition textValue (field : TextField) (config : CollageConfig.t)
  : string :=
  match field with
  | nameField => CollageConfig.name config
  | furiganaField => CollageConfig.furigana config
  | bgColor1Field => CollageConfig.bgColor1 config
  | bgColor2Field => CollageConfig.bgColor2 config
  end.

Definition textField_eqb (a b : TextField) : bool :=
  match a, b with
  | nameField, nameField | furiganaField, furiganaField
  | bgColor1Field, bgColor1Field | bgColor2Field, bgColor2Field => true
  | _, _ => false
  end.

Definition isFill (p : Paint.t) : bool :=
  match Paint.prim p with
  | FillRect _ _ _ _ => true
  | _ => false
  end.

(** The layer an upload field belongs to. *)
Definition fieldTarget (field : ImageField) : Target :=
  match field with
  | characterImageField => character
  | overlayImageField => overlay
  end.

(** The [cursor] style of the canvas element. *)
Definition cursor (s : State) : string :=
  if isDragging s then "grabbing"
  else if isHoveringChar s then "grab"
  else "default".

(** What [downloadImage] hands to the browser: the [download] name of the
    link and the canvas content behind its [href].  The PNG encoding of
    [toDataURL] is lossless and is left to the platform. *)
Record Download : Type := mkDownload {
  download : string;
  href : list Paint.t
}.

Definition downloadImage (s : State) : option Download :=
  match canvasRef s with
  | Some canvas =>
      Some (mkDownload ("collage-" ++ CollageConfig.name (config s) ++ ".png")
                       (Canvas.bitmap canvas))
  | None => None
  end.


End View.

(** * Properties *)

Import App Lifecycle Session.

(** ** Proof automation *)

(** Runs the context operations of [render], leaving arithmetic alone. *)
Ltac canvas_eval :=
  cbv beta iota zeta delta
    [render Ctx.setWidth Ctx.setHeight Ctx.with_state Ctx.paint Ctx.save
     Ctx.restore Ctx.push_xform Ctx.translate Ctx.rotate Ctx.scale
     Ctx.set_fillStyle Ctx.set_strokeStyle Ctx.set_lineWidth Ctx.set_lineJoin
     Ctx.set_font Ctx.set_textAlign Ctx.set_textBaseline Ctx.set_filter
     Ctx.set_globalCompositeOperation Ctx.set_shadowColor Ctx.set_shadowBlur
     Ctx.set_shadowOffsetX Ctx.set_shadowOffsetY Ctx.beginPath Ctx.rect
     Ctx.clip Ctx.fillRect Ctx.drawImage Ctx.strokeText Ctx.fillText
     Canvas.create Canvas.width Canvas.height Canvas.boundingClientRect
     Canvas.state Canvas.stack Canvas.path Canvas.bitmap
     DrawingState.initial DrawingState.transform DrawingState.clip
     DrawingState.fillStyle DrawingState.strokeStyle DrawingState.lineWidth
     DrawingState.lineJoin DrawingState.font DrawingState.textAlign
     DrawingState.textBaseline DrawingState.filter
     DrawingState.globalCompositeOperation DrawingState.shadowColor
     DrawingState.shadowBlur DrawingState.shadowOffsetX
     DrawingState.shadowOffsetY
     LoadedImages.char LoadedImages.overlay app].

Ltac render_cases cfg imgs :=
  unfold render;
  destruct (LoadedImages.overlay imgs) as [?overlayImg|];
  destruct (LoadedImages.char imgs) as [?charImg|];
  destruct (truthy (CollageConfig.furigana cfg));
  destruct (truthy (CollageConfig.name cfg)).

(** Unfolds the handlers and splits on every branch they take. *)
Ltac handler_cases :=
  unfold relayout, handleInputChange, handleFileUpload,
    handleTransformChange, resetTransform, handleMouseDown,
    handleMouseMove, handleMouseUp, decoded, handleInputChange;
  repeat first
    [ progress cbn [setConfig setCanvas setIsDragging setDragStart
                    setInitialDragTransform setIsHoveringChar setLoadedImages
                    loadedImages config isDragging LoadedImages.char
                    CollageConfig.characterImage withField
                    withCharacterTransform withOverlayTransform
                    withTargetTransform]
    | match goal with
      | |- context [match ?x with _ => _ end] => destruct x eqn:?
      end ].

(** Unfolds one step of the component and splits on every branch. *)
Ltac step_cases :=
  unfold step, drawCanvas, loadEffects; cbn [handle];
  unfold relayout, handleInputChange,
    handleFileUpload, handleTransformChange, resetTransform, handleMouseDown,
    handleMouseMove, handleMouseUp, decoded, handleInputChange;
  repeat first
    [ progress cbn [handle setConfig setCanvas setIsDragging setDragStart
                    setInitialDragTransform setIsHoveringChar setLoadedImages
                    loadedImages config isDragging isHoveringChar canvasRef
                    LoadedImages.char LoadedImages.overlay
                    CollageConfig.characterImage CollageConfig.overlayImage
                    withField withCharacterTransform withOverlayTransform
                    withTargetTransform]
    | match goal with
      | |- context [match ?x with _ => _ end] => destruct x eqn:?
      end ].


(** ** Arithmetic of the hit box and of the contain fit *)

Lemma Qle_bool_false (a b : Q) : Qle_bool a b = false <-> b < a.
Proof.
  split; intro H.
  - apply Qnot_le_lt. intro Hle. apply Qle_bool_iff in Hle. congruence.
  - destruct (Qle_bool a b) eqn:E; [|reflexivity].
    apply Qle_bool_iff in E. lra.
Qed.





(** ** C1: the hit test is the unrotated box test *)



(** ** C2: a drag session *)








(** ** C3: the coordinate mapper *)

Lemma render_size (cfg : CollageConfig.t) (imgs : LoadedImages.t)
  (c : Canvas.t) :
  Canvas.width (render cfg imgs c) = 900
  /\ Canvas.height (render cfg imgs c) = 1200
  /\ Canvas.boundingClientRect (render cfg imgs c)
     = Canvas.boundingClientRect c.
Proof.
  unfold render.
  destruct (LoadedImages.overlay imgs), (LoadedImages.char imgs),
    (truthy (CollageConfig.furigana cfg)), (truthy (CollageConfig.name cfg));
    repeat split.
Qed.




(** ** The compositor *)

(** [render] starts by resetting the canvas, so what it leaves depends on
    the canvas it is given through the element's bounds only. *)
Lemma render_from_scratch (cfg : CollageConfig.t) (imgs : LoadedImages.t)
  (c : Canvas.t) :
  render cfg imgs c
  = render cfg imgs (Canvas.create (Canvas.boundingClientRect c)).
Proof. render_cases cfg imgs; canvas_eval; reflexivity. Qed.

Lemma render_twice (cfg : CollageConfig.t) (imgs : LoadedImages.t)
  (c : Canvas.t) :
  render cfg imgs (render cfg imgs c) = render cfg imgs c.
Proof.
  rewrite (render_from_scratch cfg imgs (render cfg imgs c)).
  destruct (render_size cfg imgs c) as (_ & _ & ->).
  symmetry. apply render_from_scratch.
Qed.

(** [drawCanvas] touches the canvas and nothing else. *)
Lemma drawCanvas_frame (s : State) :
  config (drawCanvas s) = config s
  /\ loadedImages (drawCanvas s) = loadedImages s
  /\ isDragging (drawCanvas s) = isDragging s.
Proof. unfold drawCanvas. destruct (canvasRef s); repeat split. Qed.

(** ** C4: rendering is deterministic and keeps no history *)

(** C4.  [render] is a function of the configuration and the two optional
    decoded images: on any two canvases, whatever they hold and whatever
    state their contexts are in, it leaves the same bitmap and the same
    context state; rendering again over its own output changes nothing,
    and neither does a second [drawCanvas] on the component state. *)
Theorem render_deterministic_history_free :
  forall (cfg : CollageConfig.t) (imgs : LoadedImages.t) (c1 c2 : Canvas.t),
    Canvas.bitmap (render cfg imgs c1) = Canvas.bitmap (render cfg imgs c2)
    /\ Canvas.state (render cfg imgs c1) = Canvas.state (render cfg imgs c2)
    /\ Canvas.stack (render cfg imgs c1) = Canvas.stack (render cfg imgs c2)
    /\ Canvas.path (render cfg imgs c1) = Canvas.path (render cfg imgs c2)
    /\ Canvas.width (render cfg imgs c1) = Canvas.width (render cfg imgs c2)
    /\ Canvas.height (render cfg imgs c1) = Canvas.height (render cfg imgs c2)
    /\ render cfg imgs (render cfg imgs c1) = render cfg imgs c1
    /\ forall s : State, drawCanvas (drawCanvas s) = drawCanvas s.
Proof.
  intros cfg imgs c1 c2.
  split; [|split; [|split; [|split; [|split; [|split; [|split]]]]]].
  1-6: render_cases cfg imgs; canvas_eval; reflexivity.
  - apply render_twice.
  - intros s. unfold drawCanvas.
    destruct (canvasRef s) as [c|] eqn:E; [|rewrite E; reflexivity].
    unfold setCanvas.
    cbn [canvasRef config loadedImages isDragging dragStart
         initialDragTransform isHoveringChar].
    rewrite render_twice. reflexivity.
Qed.

(** ** C5: both images absent *)




(** ** C6: the identity transform *)

(** The portrait is the last image painted, under the drop shadow, in the
    frame of step 4. *)
Lemma render_portrait (cfg : CollageConfig.t) (img : HTMLImageElement.t)
  (ov : option HTMLImageElement.t) (c : Canvas.t) :
  let w := HTMLImageElement.width img in
  let h := HTMLImageElement.height img in
  let t := CollageConfig.characterTransform cfg in
  let bs := Math_min ((900 - 80 * 2) / w) ((1200 - 80 * 2) / h) in
  lastImagePaint (Canvas.bitmap (render cfg (LoadedImages.mk (Some img) ov) c))
  = Some (Paint.mk
            (DrawImage img (- (w * bs) / 2) (- (h * bs) / 2) (w * bs) (h * bs))
            (DrawingState.mk
               [Translate (900 / 2 + ImageTransform.x t)
                          (1200 / 2 + ImageTransform.y t);
                Rotate ((ImageTransform.rotation t * Math_PI) / 180);
                Scale (ImageTransform.scale t) (ImageTransform.scale t)]
               [] (CollageConfig.bgColor1 cfg) "#000000" 1 "miter"
               "10px sans-serif" "start" "alphabetic" "none" "source-over"
               "rgba(0,0,0,0.2)" 20 5 10)).
Proof.
  unfold render.
  destruct ov, (truthy (CollageConfig.furigana cfg)),
    (truthy (CollageConfig.name cfg)); canvas_eval; reflexivity.
Qed.




(** ** C7: the text layer *)

(** C7 (amended).  In every render the text paints come after all other
    paints.  Each string that is not empty is drawn in canvas coordinates,
    centred horizontally on x = 450 ([textAlign] "center") and centred
    vertically on its height ([textBaseline] "middle"): the furigana first,
    at height 80, stroked white with line width 6 and then filled "#555";
    then the name, at height 180, stroked white with line width 15 and then
    filled "#333".  An empty string contributes no paint at all. *)
Theorem render_text_layer_last :
  forall (cfg : CollageConfig.t) (imgs : LoadedImages.t) (c : Canvas.t),
    Spec.textDrawnLast "middle" cfg (Canvas.bitmap (render cfg imgs c)).
Proof.
  intros cfg imgs c. unfold Spec.textDrawnLast, Spec.textLayer.
  render_cases cfg imgs; canvas_eval; (split; [reflexivity|]);
    cbn [textPaints filter isText Paint.prim firstn skipn Spec.outlined
         Paint.state DrawingState.strokeStyle DrawingState.lineWidth
         DrawingState.fillStyle DrawingState.textAlign
         DrawingState.textBaseline DrawingState.transform DrawingState.clip];
    repeat (split; try reflexivity);
    repeat (constructor; try (repeat split; reflexivity)).
Qed.

(** C7 as it stands, with the text anchored by its top ([textBaseline]
    "top"), fails on the initial configuration: its text is drawn with the
    baseline "middle". *)
Lemma render_text_layer_not_top_anchored :
  ~ Spec.textDrawnLast "top" (config initialState)
      (Canvas.bitmap (render (config initialState) (LoadedImages.mk None None)
                             (Canvas.create Sample.halfSize))).
Proof.
  unfold Spec.textDrawnLast, Spec.textLayer.
  intros (_ & H & _). revert H.
  canvas_eval.
  cbn [truthy config initialState CollageConfig.furigana CollageConfig.name
       textPaints filter isText Paint.prim firstn Spec.outlined Paint.state
       DrawingState.textBaseline].
  intros (_ & _ & _ & _ & H). inversion H as [|? ? (_ & Hb & _) _].
  discriminate Hb.
Qed.

(** ** C8: rendering only reads its inputs *)


(** ** C9: choosing a file *)

(** C9.  [handleFileUpload] with a file installs it as the image of the
    layer it is for and resets that layer's transform to the identity; the
    other layer's image and transform, the two texts and the two colours
    keep their values, and so do the decoded images, the drag controller
    and the canvas.  With no file it changes nothing. *)
Theorem handleFileUpload_resets_own_transform :
  forall (s : State) (file : File) (field : ImageField),
    let s' := handleFileUpload (Some file) field s in
    match field with
    | characterImageField =>
        CollageConfig.characterImage (config s') = Some file
        /\ CollageConfig.characterTransform (config s') = INITIAL_TRANSFORM
        /\ CollageConfig.overlayImage (config s')
           = CollageConfig.overlayImage (config s)
        /\ CollageConfig.overlayTransform (config s')
           = CollageConfig.overlayTransform (config s)
    | overlayImageField =>
        CollageConfig.overlayImage (config s') = Some file
        /\ CollageConfig.overlayTransform (config s') = INITIAL_TRANSFORM
        /\ CollageConfig.characterImage (config s')
           = CollageConfig.characterImage (config s)
        /\ CollageConfig.characterTransform (config s')
           = CollageConfig.characterTransform (config s)
    end
    /\ CollageConfig.name (config s') = CollageConfig.name (config s)
    /\ CollageConfig.furigana (config s') = CollageConfig.furigana (config s)
    /\ CollageConfig.bgColor1 (config s') = CollageConfig.bgColor1 (config s)
    /\ CollageConfig.bgColor2 (config s') = CollageConfig.bgColor2 (config s)
    /\ loadedImages s' = loadedImages s
    /\ isDragging s' = isDragging s
    /\ canvasRef s' = canvasRef s
    /\ INITIAL_TRANSFORM = ImageTransform.mk 0 0 1 0
    /\ handleFileUpload None field s = s.
Proof.
  intros s file field s'. subst s'.
  destruct s as [cfg imgs d ds dt hv cv], field; cbn; repeat split.
Qed.

(** ** C10: no drag without a decoded primary image *)

Lemma handle_keeps_idle (s : State) (ev : Event) :
  Spec.idleWithoutImage s -> Spec.idleWithoutImage (handle ev s).
Proof.
  unfold Spec.idleWithoutImage. intro H.
  destruct ev; try destruct target; cbn [handle]; handler_cases;
    try assumption; try congruence; auto;
    intro Hn; specialize (H Hn); congruence.
Qed.

(** What the transition system maintains: with no primary file selected
    there is no decoded primary image, and with none decoded the controller
    is idle. *)
Lemma reachable_idle (s : State) :
  reachable s ->
  Spec.idleWithoutImage s
  /\ (CollageConfig.characterImage (config s) = None ->
      LoadedImages.char (loadedImages s) = None).
Proof.
  induction 1 as [|s ev Hr [Hidle Hfile]].
  - split; intro; reflexivity.
  - unfold step.
    destruct (drawCanvas_frame (loadEffects (handle ev s)))
      as (-> & Hl & Hd).
    unfold Spec.idleWithoutImage. rewrite Hl, Hd. clear Hl Hd.
    assert (Hidle' := handle_keeps_idle s ev Hidle).
    assert (Hfile' :
              CollageConfig.characterImage (config (handle ev s)) = None ->
              LoadedImages.char (loadedImages (handle ev s)) = None).
    { clear Hidle'.
      destruct ev; try destruct target; cbn [handle]; handler_cases;
        try assumption; try congruence; auto;
        intro Hn; specialize (Hfile Hn); congruence. }
    unfold Spec.idleWithoutImage in Hidle'.
    revert Hidle' Hfile'. generalize (handle ev s) as s1. intros s1.
    unfold loadEffects. intros Hidle' Hfile'.
    destruct (CollageConfig.characterImage (config s1)) eqn:E1;
      cbn [setLoadedImages config loadedImages isDragging LoadedImages.char];
      rewrite ?E1;
      destruct (CollageConfig.overlayImage (config s1)) eqn:E2;
      cbn [setLoadedImages config loadedImages isDragging LoadedImages.char
           LoadedImages.overlay];
      split; auto; try congruence.
Qed.

(** C10.  Every handler keeps the invariant that with no decoded primary
    image the drag controller is idle, and every state the component
    reaches satisfies it, as does the state after any further event.  In a
    reachable state with no decoded primary image: the controller is idle;
    [isPointInCharacter] is false at every point; a pointer-down leaves the
    whole state as it is, so the controller stays idle and the primary
    transform keeps its value; and a pointer-move leaves the controller idle
    and the configuration as it is. *)
Theorem drag_needs_decoded_image :
  (forall (s : State) (ev : Event),
      Spec.idleWithoutImage s -> Spec.idleWithoutImage (handle ev s))
  /\ forall s : State,
       reachable s ->
       Spec.idleWithoutImage s
       /\ (forall ev : Event, Spec.idleWithoutImage (step ev s))
       /\ (LoadedImages.char (loadedImages s) = None ->
           isDragging s = false
           /\ (forall x y : Q, isPointInCharacter s x y = false)
           /\ (forall e : PointerEvent,
                 handleMouseDown e s = s
                 /\ isDragging (handleMouseDown e s) = false
                 /\ CollageConfig.characterTransform
                      (config (handleMouseDown e s))
                    = CollageConfig.characterTransform (config s))
           /\ (forall e : PointerEvent,
                 isDragging (handleMouseMove e s) = false
                 /\ config (handleMouseMove e s) = config s)).
Proof.
  split; [exact handle_keeps_idle|].
  intros s Hr. destruct (reachable_idle s Hr) as [Hidle _].
  split; [exact Hidle|]. split.
  { intro ev. apply (reachable_idle (step ev s)).
    apply reachable_step, Hr. }
  intro Hnone. assert (Hd : isDragging s = false) by exact (Hidle Hnone).
  assert (Hdown : forall e, handleMouseDown e s = s)
    by (intro e; unfold handleMouseDown; rewrite Hnone; reflexivity).
  split; [exact Hd|]. split; [|split].
  - intros x y. unfold isPointInCharacter. rewrite Hnone. reflexivity.
  - intro e. rewrite Hdown. auto.
  - intro e. unfold handleMouseMove. destruct (clientXY e) as [cx cy].
    rewrite Hd. destruct (negb (hasTouches e) && negb false); split;
      first [exact Hd | reflexivity].
Qed.

Lemma drag_needs_decoded_image_witness :
  handleMouseDown (MouseEvent 225 300) initialState = initialState
  /\ isPointInCharacter initialState 450 600 = false.
Proof.
  destruct drag_needs_decoded_image as [_ H].
  destruct (H initialState reachable_initial) as (_ & _ & H1).
  destruct (H1 eq_refl) as (_ & Hp & Hdown & _).
  split; [apply Hdown | apply Hp].
Defined.

(** * Further properties *)

Import View.

(** ** The transform sliders *)

(** X1.  [handleTransformChange] writes one field of one layer's transform:
    afterwards that field reads as the value written, every other field of
    either transform reads as before, and nothing else of the state has
    changed; writing the same field again overwrites the first value. *)
Theorem handleTransformChange_writes_one_field :
  forall (s : State) (target : Target) (key : TransformKey) (value : Q),
    let s' := handleTransformChange target key value s in
    (forall (tg : Target) (k : TransformKey),
        keyValue k (targetTransform tg (config s'))
        = if target_eqb tg target && key_eqb k key then value
          else keyValue k (targetTransform tg (config s)))
    /\ CollageConfig.name (config s') = CollageConfig.name (config s)
    /\ CollageConfig.furigana (config s') = CollageConfig.furigana (config s)
    /\ CollageConfig.bgColor1 (config s') = CollageConfig.bgColor1 (config s)
    /\ CollageConfig.bgColor2 (config s') = CollageConfig.bgColor2 (config s)
    /\ CollageConfig.characterImage (config s')
       = CollageConfig.characterImage (config s)
    /\ CollageConfig.overlayImage (config s')
       = CollageConfig.overlayImage (config s)
    /\ setConfig (fun _ => config s) s' = s
    /\ forall value' : Q,
         handleTransformChange target key value' s'
         = handleTransformChange target key value' s.
Proof.
  intros s target key value s'. subst s'.
  destruct s as [[n f b1 b2 ci oi [cx cy cs cr] [ox oy os or]] li d ds dt hv cv].
  split.
  - intros tg k. destruct target, key, tg, k; reflexivity.
  - destruct target, key; repeat split.
Qed.

(** X2.  Writes to different fields commute: two slider changes that are
    not to the same field of the same layer give the same state in either
    order. *)
Theorem handleTransformChange_commutes :
  forall (s : State) (t1 t2 : Target) (k1 k2 : TransformKey) (v1 v2 : Q),
    target_eqb t1 t2 && key_eqb k1 k2 = false ->
    handleTransformChange t1 k1 v1 (handleTransformChange t2 k2 v2 s)
    = handleTransformChange t2 k2 v2 (handleTransformChange t1 k1 v1 s).
Proof.
  intros s t1 t2 k1 k2 v1 v2 H.
  destruct s as [[n f b1 b2 ci oi [cx cy cs cr] [ox oy os or]] li d ds dt hv cv].
  destruct t1, t2, k1, k2; try discriminate H; reflexivity.
Qed.

Lemma handleTransformChange_commutes_witness :
  handleTransformChange character key_scale 2
    (handleTransformChange character key_x 100 initialState)
  = handleTransformChange character key_x 100
      (handleTransformChange character key_scale 2 initialState).
Proof.
  apply handleTransformChange_commutes. reflexivity.
Defined.

(** X3.  [resetTransform] sets the layer's transform to the identity
    {0, 0, 1, 0} and leaves the other layer's transform alone; it undoes
    any slider change to its own layer and commutes with a slider change to
    the other; and an upload is the image assignment followed by the reset
    of that layer. *)
Theorem resetTransform_restores_identity :
  forall (s : State) (target : Target),
    (forall tg : Target,
        targetTransform tg (config (resetTransform target s))
        = if target_eqb tg target then ImageTransform.mk 0 0 1 0
          else targetTransform tg (config s))
    /\ (forall (tg : Target) (key : TransformKey) (value : Q),
          resetTransform target (handleTransformChange tg key value s)
          = if target_eqb tg target then resetTransform target s
            else handleTransformChange tg key value (resetTransform target s))
    /\ resetTransform target (resetTransform target s)
       = resetTransform target s
    /\ forall (file : File) (field : ImageField),
         handleFileUpload (Some file) field s
         = resetTransform (fieldTarget field)
             (handleInputChange (ImageValue field file) s).
Proof.
  intros s target.
  destruct s as [[n f b1 b2 ci oi [cx cy cs cr] [ox oy os or]] li d ds dt hv cv].
  split; [|split; [|split]].
  - intro tg. destruct target, tg; reflexivity.
  - intros tg key value. destruct target, tg, key; reflexivity.
  - destruct target; reflexivity.
  - intros file field. destruct field; reflexivity.
Qed.

(** ** The pointer handlers *)

(** One pointer-move, whatever the controller's state: the configuration
    changes in the primary offset at most, and only the hover flag changes
    beside it. *)
Lemma handleMouseMove_frame (s : State) (e : PointerEvent) :
  config (handleMouseMove e s)
  = withCharacterTransform
      (ImageTransform.mk
         (offsetX (handleMouseMove e s)) (offsetY (handleMouseMove e s))
         (ImageTransform.scale (CollageConfig.characterTransform (config s)))
         (ImageTransform.rotation
            (CollageConfig.characterTransform (config s))))
      (config s)
  /\ loadedImages (handleMouseMove e s) = loadedImages s
  /\ isDragging (handleMouseMove e s) = isDragging s
  /\ dragStart (handleMouseMove e s) = dragStart s
  /\ initialDragTransform (handleMouseMove e s) = initialDragTransform s
  /\ canvasRef (handleMouseMove e s) = canvasRef s.
Proof.
  unfold handleMouseMove, offsetX, offsetY.
  destruct (clientXY e) as [cx cy].
  destruct s as [[n f b1 b2 ci oi [tx ty ts tr] ot] li d ds dt hv cv].
  destruct d, (hasTouches e); cbn; repeat split.
Qed.

Lemma moves_frame (es : list PointerEvent) :
  forall s : State,
    config (moves es s)
    = withCharacterTransform
        (ImageTransform.mk
           (offsetX (moves es s)) (offsetY (moves es s))
           (ImageTransform.scale (CollageConfig.characterTransform (config s)))
           (ImageTransform.rotation
              (CollageConfig.characterTransform (config s))))
        (config s)
    /\ loadedImages (moves es s) = loadedImages s
    /\ isDragging (moves es s) = isDragging s
    /\ dragStart (moves es s) = dragStart s
    /\ initialDragTransform (moves es s) = initialDragTransform s
    /\ canvasRef (moves es s) = canvasRef s.
Proof.
  induction es as [|e es IH]; intro s.
  - unfold moves, offsetX, offsetY; cbn [fold_left].
    destruct s as [[n f b1 b2 ci oi [tx ty ts tr] ot] li d ds dt hv cv].
    repeat split.
  - change (moves (e :: es) s) with (moves es (handleMouseMove e s)).
    destruct (IH (handleMouseMove e s)) as (Hc & Hl & Hd & Hs & Hi & Hr).
    destruct (handleMouseMove_frame s e) as (Hc1 & Hl1 & Hd1 & Hs1 & Hi1 & Hr1).
    rewrite Hl, Hd, Hs, Hi, Hr, Hl1, Hd1, Hs1, Hi1, Hr1.
    repeat split. rewrite Hc, Hc1. reflexivity.
Qed.

(** X4.  Any run of pointer-moves, dragging or not, changes at most the
    primary offset in the configuration: the texts, the colours, both image
    files, the pattern's transform and the portrait's scale and rotation
    keep their values, and so do the decoded images, the controller's mode
    and anchors, and the canvas reference. *)
Theorem moves_change_offset_only :
  forall (es : list PointerEvent) (s : State),
    let s' := moves es s in
    config s'
    = withCharacterTransform
        (ImageTransform.mk
           (offsetX s') (offsetY s')
           (ImageTransform.scale (CollageConfig.characterTransform (config s)))
           (ImageTransform.rotation
              (CollageConfig.characterTransform (config s))))
        (config s)
    /\ loadedImages s' = loadedImages s
    /\ isDragging s' = isDragging s
    /\ dragStart s' = dragStart s
    /\ initialDragTransform s' = initialDragTransform s
    /\ canvasRef s' = canvasRef s
    /\ (isDragging s = false -> config s' = config s).
Proof.
  intros es s s'. subst s'.
  destruct (moves_frame es s) as (Hc & Hl & Hd & Hs & Hi & Hr).
  repeat (split; [assumption|]).
  clear. revert s. induction es as [|e es IH]; intros s Hidle.
  - reflexivity.
  - change (moves (e :: es) s) with (moves es (handleMouseMove e s)).
    assert (Hs : config (handleMouseMove e s) = config s
                 /\ isDragging (handleMouseMove e s) = false).
    { unfold handleMouseMove. destruct (clientXY e). rewrite Hidle.
      destruct (negb (hasTouches e) && negb false); auto. }
    destruct Hs as [Hc Hd]. rewrite IH by exact Hd. exact Hc.
Qed.

Lemma moves_change_offset_only_witness :
  config (moves [MouseEvent 10 10; MouseEvent 300 200] Sample.loaded)
  = config Sample.loaded.
Proof.
  apply (moves_change_offset_only
           [MouseEvent 10 10; MouseEvent 300 200] Sample.loaded).
  vm_compute. reflexivity.
Defined.



(** X6.  The cursor.  A mouse move over an idle controller shows "grab"
    exactly when the pointer is in the hit region, and "default" otherwise;
    a touch move over an idle controller leaves the cursor as it was; and
    through any run of moves of a drag the cursor is "grabbing". *)
Theorem cursor_follows_pointer :
  forall (s : State),
    (isDragging s = false ->
     forall (clientX clientY : Q) (touch0 : Point.t) (others : list Point.t),
       let p := canvasPoint s (MouseEvent clientX clientY) in
       cursor (handleMouseMove (MouseEvent clientX clientY) s)
       = (if isPointInCharacter s (Point.x p) (Point.y p)
          then "grab" else "default")
       /\ cursor (handleMouseMove (TouchEvent touch0 others) s) = cursor s)
    /\ (isDragging s = true ->
        forall es : list PointerEvent, cursor (moves es s) = "grabbing").
Proof.
  intro s. split.
  - intros Hidle cx cy touch0 others p. subst p.
    unfold cursor, handleMouseMove, canvasPoint.
    cbn [clientXY hasTouches negb andb]. rewrite Hidle.
    cbn [negb setIsHoveringChar isDragging isHoveringChar]. rewrite Hidle.
    split; reflexivity.
  - intros Hd es. unfold cursor.
    destruct (moves_frame es s) as (_ & _ & -> & _). rewrite Hd. reflexivity.
Qed.

Lemma cursor_follows_pointer_witness :
  cursor (handleMouseMove (MouseEvent 225 300) Sample.loaded) = "grab"
  /\ cursor (moves [MouseEvent 300 300]
                   (handleMouseDown (MouseEvent 225 300) Sample.loaded))
     = "grabbing".
Proof.
  split.
  - destruct (cursor_follows_pointer Sample.loaded) as [H _].
    destruct (H ltac:(vm_compute; reflexivity) 225 300 (Point.mk 0 0) [])
      as [H1 _].
    rewrite H1. vm_compute. reflexivity.
  - destruct (cursor_follows_pointer
                (handleMouseDown (MouseEvent 225 300) Sample.loaded))
      as [_ H].
    apply H. vm_compute. reflexivity.
Defined.

(** X7.  Touch and mouse are one pointer: a touch event acts through its
    first touch point only, so further touch points change nothing; a
    touch-start is a mouse-down at the first touch point, and a touch-move
    changes the configuration and the controller as a mouse-move there
    does. *)
Theorem touch_is_first_point :
  forall (s : State) (touch0 : Point.t) (others others' : list Point.t),
    let asMouse := MouseEvent (Point.x touch0) (Point.y touch0) in
    handleMouseDown (TouchEvent touch0 others) s = handleMouseDown asMouse s
    /\ handleMouseDown (TouchEvent touch0 others) s
       = handleMouseDown (TouchEvent touch0 others') s
    /\ handleMouseMove (TouchEvent touch0 others) s
       = handleMouseMove (TouchEvent touch0 others') s
    /\ config (handleMouseMove (TouchEvent touch0 others) s)
       = config (handleMouseMove asMouse s)
    /\ isDragging (handleMouseMove (TouchEvent touch0 others) s)
       = isDragging (handleMouseMove asMouse s)
    /\ isHoveringChar (handleMouseMove (TouchEvent touch0 others) s)
       = isHoveringChar s.
Proof.
  intros s touch0 others others' asMouse. subst asMouse.
  unfold handleMouseDown, handleMouseMove.
  cbn [clientXY hasTouches negb andb].
  destruct (isDragging s) eqn:Hd; cbn [negb]; rewrite ?Hd; repeat split.
  cbn [setIsHoveringChar isDragging]. symmetry. exact Hd.
Qed.

(** ** The coordinate mapper on the element *)



(** ** The loaders and the redraw *)

(** What the loaders maintain: a layer with no file selected has no decoded
    image; and with no decoded primary image the hover flag is down. *)
Lemma reachable_loaders (s : State) :
  reachable s ->
  (CollageConfig.characterImage (config s) = None ->
   LoadedImages.char (loadedImages s) = None)
  /\ (CollageConfig.overlayImage (config s) = None ->
      LoadedImages.overlay (loadedImages s) = None)
  /\ (LoadedImages.char (loadedImages s) = None -> isHoveringChar s = false).
Proof.
  induction 1 as [|s ev Hr (Hc & Ho & Hh)].
  - repeat split.
  - destruct ev; try destruct target; step_cases;
      repeat split; intros;
      cbn [setConfig setLoadedImages setIsHoveringChar setIsDragging
           setDragStart setInitialDragTransform setCanvas
           config loadedImages canvasRef
           CollageConfig.characterImage CollageConfig.overlayImage
           withField withCharacterTransform withOverlayTransform] in *;
      try congruence; auto;
      try (rewrite Hc in * by congruence; congruence);
      try (rewrite Ho in * by congruence; congruence);
      try (unfold isPointInCharacter;
           repeat match goal with
                  | H : LoadedImages.char _ = _ |- _ => rewrite H
                  end; reflexivity);
      try (unfold isPointInCharacter; rewrite Hc by assumption; reflexivity).
Qed.

(** X9.  Until a primary image has been decoded the canvas never offers a
    grab: in every reachable state with no decoded primary image the hover
    flag is down and the cursor is "default". *)
Theorem cursor_default_without_image :
  forall s : State,
    reachable s ->
    LoadedImages.char (loadedImages s) = None ->
    isHoveringChar s = false /\ cursor s = "default".
Proof.
  intros s Hr Hnone.
  destruct (reachable_loaders s Hr) as (_ & _ & Hh).
  destruct (reachable_idle s Hr) as [Hidle _].
  unfold cursor. rewrite (Hidle Hnone), (Hh Hnone). split; reflexivity.
Qed.

Lemma cursor_default_without_image_witness :
  cursor (step (PointerMove (MouseEvent 225 300))
            (step (Mount Sample.halfSize) initialState)) = "default".
Proof.
  apply cursor_default_without_image.
  - repeat apply reachable_step. apply reachable_initial.
  - vm_compute. reflexivity.
Defined.



Lemma render_bitmap_any (cfg : CollageConfig.t) (imgs : LoadedImages.t)
  (c1 c2 : Canvas.t) :
  Canvas.bitmap (render cfg imgs c1) = Canvas.bitmap (render cfg imgs c2).
Proof. render_cases cfg imgs; canvas_eval; reflexivity. Qed.

(** X11.  What is saved is what the state describes: in every reachable
    state, [downloadImage] offers nothing when no canvas is mounted, and
    otherwise a file named "collage-" + name + ".png" whose content is the
    rendering of the current configuration and decoded images. *)
Theorem downloadImage_current_rendering :
  forall s : State,
    reachable s ->
    match downloadImage s with
    | None => canvasRef s = None
    | Some d =>
        download d
        = ("collage-" ++ CollageConfig.name (config s) ++ ".png")%string
        /\ forall c : Canvas.t,
             href d = Canvas.bitmap (render (config s) (loadedImages s) c)
    end.
Proof.
  intros s Hr. destruct Hr as [|s ev _].
  - reflexivity.
  - unfold step. set (s1 := loadEffects (handle ev s)).
    unfold downloadImage, drawCanvas.
    destruct (canvasRef s1) as [c0|] eqn:E.
    + cbn [setCanvas canvasRef config loadedImages download href].
      split; [reflexivity|]. intro c. apply render_bitmap_any.
    + rewrite E. reflexivity.
Qed.

Lemma downloadImage_current_rendering_witness :
  match downloadImage Sample.loaded with
  | None => canvasRef Sample.loaded = None
  | Some d =>
      download d
      = ("collage-" ++ CollageConfig.name (config Sample.loaded) ++ ".png")%string
      /\ forall c : Canvas.t,
           href d
           = Canvas.bitmap
               (render (config Sample.loaded) (loadedImages Sample.loaded) c)
  end.
Proof.
  apply downloadImage_current_rendering.
  unfold Sample.loaded, run; cbn [fold_left].
  repeat apply reachable_step. apply reachable_initial.
Defined.

(** ** The pattern layer *)





(** ** Layers do not leak into each other *)

(** X13.  Every [save] of [render] is matched by a [restore]: the context
    ends with an empty stack, no transformation, no clip, no filter, plain
    compositing and no shadow.  Whatever images are present, the two fills
    and the text are painted unclipped, unfiltered, with plain compositing
    and without shadow, and the text in canvas coordinates; the portrait,
    when present, is the last image painted, unclipped, unfiltered and with
    plain compositing, under its drop shadow of offset (5, 10) and blur
    20. *)
Theorem render_effects_stay_with_layer :
  forall (cfg : CollageConfig.t) (imgs : LoadedImages.t) (c : Canvas.t),
    let out := render cfg imgs c in
    let plain (st : DrawingState.t) :=
      DrawingState.clip st = []
      /\ DrawingState.filter st = "none"
      /\ DrawingState.globalCompositeOperation st = "source-over" in
    let shadowless (st : DrawingState.t) :=
      DrawingState.shadowColor st = "rgba(0, 0, 0, 0)"
      /\ DrawingState.shadowBlur st = 0
      /\ DrawingState.shadowOffsetX st = 0
      /\ DrawingState.shadowOffsetY st = 0 in
    (Canvas.stack out = []
     /\ DrawingState.transform (Canvas.state out) = []
     /\ plain (Canvas.state out) /\ shadowless (Canvas.state out))
    /\ Forall (fun p =>
                 if isImage p then True
                 else plain (Paint.state p) /\ shadowless (Paint.state p)
                      /\ (if isText p
                          then DrawingState.transform (Paint.state p) = []
                          else True))
              (Canvas.bitmap out)
    /\ match LoadedImages.char imgs with
       | Some img =>
           exists pt : Paint.t,
             lastImagePaint (Canvas.bitmap out) = Some pt
             /\ imagesPainted [pt] = [img]
             /\ plain (Paint.state pt)
             /\ DrawingState.shadowColor (Paint.state pt) = "rgba(0,0,0,0.2)"
             /\ DrawingState.shadowBlur (Paint.state pt) = 20
             /\ DrawingState.shadowOffsetX (Paint.state pt) = 5
             /\ DrawingState.shadowOffsetY (Paint.state pt) = 10
       | None => True
       end.
Proof.
  intros cfg imgs c out plain shadowless. subst out plain shadowless.
  destruct imgs as [ch ov]. cbn [LoadedImages.char].
  split; [|split].
  - unfold render. cbn [LoadedImages.char LoadedImages.overlay].
    destruct ov, ch, (truthy (CollageConfig.furigana cfg)),
      (truthy (CollageConfig.name cfg)); canvas_eval; repeat split.
  - unfold render. cbn [LoadedImages.char LoadedImages.overlay].
    destruct ov, ch, (truthy (CollageConfig.furigana cfg)),
      (truthy (CollageConfig.name cfg)); canvas_eval;
      repeat (constructor;
              [cbn [isImage isText Paint.prim Paint.state];
               try exact I; repeat split|]);
      constructor.
  - destruct ch as [img|]; [|exact I].
    eexists. split; [apply render_portrait|]. repeat split.
Qed.

(** ** The hit box and the scale *)



(** ** Edits and layers *)

(** X15.  Editing the name or the furigana changes the text layer only:
    every other paint of the rendering is as before.  Changing either
    layer's transform leaves the text layer as it was. *)
Theorem render_edits_stay_in_layer :
  forall (cfg : CollageConfig.t) (imgs : LoadedImages.t) (c : Canvas.t),
    (forall (field : TextField) (value : string),
        match field with
        | nameField | furiganaField =>
            otherPaints
              (Canvas.bitmap
                 (render (withField (TextValue field value) cfg) imgs c))
            = otherPaints (Canvas.bitmap (render cfg imgs c))
        | _ => True
        end)
    /\ forall (target : Target) (t : ImageTransform.t),
         textPaints
           (Canvas.bitmap (render (withTargetTransform target t cfg) imgs c))
         = textPaints (Canvas.bitmap (render cfg imgs c)).
Proof.
  intros cfg imgs c. split.
  - intros field value.
    destruct field; try exact I; unfold render, withField;
      cbn [CollageConfig.name CollageConfig.furigana CollageConfig.bgColor1
           CollageConfig.bgColor2 CollageConfig.characterTransform
           CollageConfig.overlayTransform];
      destruct (LoadedImages.overlay imgs), (LoadedImages.char imgs),
        (truthy value), (truthy (CollageConfig.furigana cfg)),
        (truthy (CollageConfig.name cfg)); canvas_eval; reflexivity.
  - intros target t.
    destruct target; unfold render, withTargetTransform,
      withCharacterTransform, withOverlayTransform;
      cbn [CollageConfig.name CollageConfig.furigana CollageConfig.bgColor1
           CollageConfig.bgColor2 CollageConfig.characterTransform
           CollageConfig.overlayTransform];
      destruct (LoadedImages.overlay imgs), (LoadedImages.char imgs),
        (truthy (CollageConfig.furigana cfg)),
        (truthy (CollageConfig.name cfg)); canvas_eval; reflexivity.
Qed.

(** ** Texts and colours *)

(** X16.  [handleInputChange] on one of the four text-valued keys writes
    that key and no other: the other three read as before, both images and
    both transforms are untouched, and so is the rest of the state.  The two
    colours reach the canvas: every rendering, whatever the images and the
    texts, starts with the background fill in [bgColor1] followed by the
    strip in [bgColor2], and fills no other rectangle. *)
Theorem handleInputChange_writes_one_key :
  forall (s : State) (field : TextField) (value : string),
    let s' := handleInputChange (TextValue field value) s in
    (forall f : TextField,
        textValue f (config s')
        = if textField_eqb f field then value else textValue f (config s))
    /\ CollageConfig.characterImage (config s')
       = CollageConfig.characterImage (config s)
    /\ CollageConfig.overlayImage (config s')
       = CollageConfig.overlayImage (config s)
    /\ CollageConfig.characterTransform (config s')
       = CollageConfig.characterTransform (config s)
    /\ CollageConfig.overlayTransform (config s')
       = CollageConfig.overlayTransform (config s)
    /\ setConfig (fun _ => config s) s' = s
    /\ forall (imgs : LoadedImages.t) (c : Canvas.t),
         exists rest : list Paint.t,
           Canvas.bitmap (render (config s') imgs c)
           = Spec.backgroundFill (config s') :: Spec.accentBand (config s')
             :: rest
           /\ existsb isFill rest = false
           /\ DrawingState.fillStyle
                (Paint.state (Spec.backgroundFill (config s')))
              = textValue bgColor1Field (config s')
           /\ DrawingState.fillStyle
                (Paint.state (Spec.accentBand (config s')))
              = textValue bgColor2Field (config s').
Proof.
  intros s field value s'. subst s'.
  split; [|split; [|split; [|split; [|split; [|split]]]]].
  - intro f. destruct field, f; reflexivity.
  - destruct field; reflexivity.
  - destruct field; reflexivity.
  - destruct field; reflexivity.
  - destruct field; reflexivity.
  - destruct s, field; reflexivity.
  - intros imgs c.
    generalize (config (handleInputChange (TextValue field value) s)) as cfg.
    intro cfg. render_cases cfg imgs; canvas_eval; eexists;
      (split; [reflexivity|]); repeat split.
Qed.

(** ** The hit region and the drawn portrait *)


